(** * The gym bridge of GRUtopia: [grutopia/core/gym_env.py]

    A shallow embedding of class [Env], the single-environment,
    single-agent wrapper around the simulator runner, together with the
    properties of its construction checks and of its reset/step protocol. *)

From Stdlib Require Import ZArith String List DecimalString Floats.PrimFloat.
From stdpp Require Import base option list strings gmap.

Open Scope Z_scope.
Open Scope string_scope.

(** ** Python values the bridge produces itself *)

(** The exceptions that can leave a method of [Env].  [ValueError] is the
    one [_validate] raises; [KeyError] and [IndexError] come from the
    subscripts; [Raised] stands for whatever a collaborator raises. *)
Inductive exn : Type :=
| ValueError (msg : string)
| KeyError (key : string)
| IndexError
| Raised (what : string).

Inductive result (A : Type) : Type :=
| Ok (a : A)
| Err (e : exn).
Arguments Ok {A} a.
Arguments Err {A} e.

Definition is_ok {A} (r : result A) : bool :=
  match r with Ok _ => true | Err _ => false end.

(** [str(x)] for an [Optional[str]], as an f-string field formats it. *)
Definition py_str (x : option string) : string :=
  match x with
  | Some s => s
  | None => "None"
  end.

(** [str(n)] for an [int], as an f-string field formats it. *)
Definition py_str_int (n : Z) : string := NilZero.string_of_int (Z.to_int n).

(** [d[k]] on a dict with string keys. *)
Definition getitem {V} (d : gmap string V) (k : string) : result V :=
  match d !! k with
  | Some v => Ok v
  | None => Err (KeyError k)
  end.

(** Exceptions short-circuit: [result] is the error monad of the pure
    parts (the constructor and its checks). *)
#[global] Instance result_ret : MRet result := @Ok.
#[global] Instance result_bind : MBind result := λ A B f r,
  match r with
  | Ok a => f a
  | Err e => Err e
  end.

(** ** Configuration *)

(** [grutopia_extension/configs/robots/jetbot.py], [aliengo.py]: the
    meta fields of a robot configuration are declared [Optional[str]],
    [name] included. *)
Module RobotCfg.
Record t : Type := mk { name : option string; type : option string; prim_path : option string }.
End RobotCfg.

Module EpisodeCfg.
Record t : Type := mk { robots : list RobotCfg.t }.
End EpisodeCfg.

Module TaskCfg.
Record t : Type := mk { type : string; episodes : list EpisodeCfg.t }.
End TaskCfg.

Module ValidatedConfig.
Record t : Type := mk { task_config : TaskCfg.t }.
End ValidatedConfig.

(** ** [Env._validate]: the loop over the episodes

    [robot_name] is the local variable of [_validate]; [None] is both its
    initial value and a value an episode's robot may carry. *)
Fixpoint validate_episodes (robot_name : option string) (episodes : list EpisodeCfg.t)
  : result (option string) :=
  match episodes with
  | [] => Ok robot_name
  | episode :: rest =>
      if bool_decide (length (EpisodeCfg.robots episode) ≠ 1%nat) then
        Err (ValueError ("Only support single agent now, but episode requires "
                         +:+ py_str_int (Z.of_nat (length (EpisodeCfg.robots episode))) +:+ " agents"))
      else
        match EpisodeCfg.robots episode !! 0%nat with
        | None => Err IndexError
        | Some robot0 =>
            match robot_name with
            | None => validate_episodes (RobotCfg.name robot0) rest
            | Some _ =>
                if bool_decide (robot_name ≠ RobotCfg.name robot0) then
                  Err (ValueError "Only support single agent now, but episode requires multiple agents")
                else validate_episodes robot_name rest
            end
        end
  end.

Section Bridge.

(** ** Collaborators

    The space utility, the configuration loader, the simulation app and
    the task descriptor class live outside [gym_env.py]; the bridge is
    parametric in them.  [ConfigValue] is a leaf of the raw configuration
    mapping, [ObsVal] a sensor reading. *)
Class Collaborators : Type := {
  Space : Type;
  ConfigValue : Type;
  App : Type;
  ObsVal : Type;
  Action : Type;
  TaskRuntime : Type;
  (** [space.get_action_space_by_task], [space.get_observation_space_by_task] *)
  get_action_space_by_task : ConfigValue → result Space;
  get_observation_space_by_task : ConfigValue → result Space;
  (** the [ValidatedConfig] constructor, applied to the raw mapping *)
  new_ValidatedConfig : gmap string (gmap string ConfigValue) → result ValidatedConfig.t;
  (** [task_runtime.name] *)
  task_runtime_name : TaskRuntime → string;
  (** [simulation_app.close()] *)
  app_close : App → result unit * App
}.

Context `{Collaborators}.

Record SimulatorRuntime : Type := mkRuntime {
  env_num : Z;
  config : gmap string (gmap string ConfigValue);
  simulation_app : App
}.

(** Per-task, per-robot dictionaries exchanged with the runner. *)
Abbreviation Observation := (gmap string ObsVal).
Abbreviation ObsMap := (gmap string (gmap string (gmap string ObsVal))).
Abbreviation ActionMap := (gmap string (gmap string Action)).
Abbreviation Info := (gmap string TaskRuntime).

(** The runner, [grutopia.core.runner.SimulatorRunner], as the bridge
    uses it.  A call may raise and may change the runner. *)
Class TaskRunner (R : Type) : Type := {
  SimulatorRunner : SimulatorRuntime → result R;
  runner_reset : option string → R → result (ObsMap * option TaskRuntime) * R;
  runner_step : ActionMap → R → result (ObsMap * gmap string bool) * R;
  runner_get_obs : R → result ObsMap * R;
  runner_dt : R → float;
  runner_current_tasks : R → gset string
}.

(** ** Construction *)

(** [Env._validate]; the value is the one stored in [self._robot_name]. *)
Definition _validate (_runtime : SimulatorRuntime) : result string :=
  if bool_decide (env_num _runtime > 1) then
    Err (ValueError ("Only support single env now, but env num is " +:+ py_str_int (env_num _runtime)))
  else
    let robot_name := None in
    config ← new_ValidatedConfig (config _runtime);
    robot_name ← validate_episodes robot_name
                   (TaskCfg.episodes (ValidatedConfig.task_config config));
    Ok (py_str robot_name +:+ "_" +:+ py_str_int 0).

(** [self._runtime.config['task_config']['type']] *)
Definition config_task_type (_runtime : SimulatorRuntime) : result ConfigValue :=
  task_config ← getitem (config _runtime) "task_config";
  getitem task_config "type".

Definition _get_action_space (_runtime : SimulatorRuntime) : result Space :=
  config_task_type _runtime ≫= get_action_space_by_task.

Definition _get_observation_space (_runtime : SimulatorRuntime) : result Space :=
  config_task_type _runtime ≫= get_observation_space_by_task.

(** A runner that also records the calls made on it, in order. *)
Inductive RunnerCall : Type :=
| CalledReset (name : option string)
| CalledStep (actions : ActionMap)
| CalledGetObs.

Record Spy (R : Type) : Type := mkSpy { spy_calls : list RunnerCall; spied : R }.
Arguments mkSpy {R} _ _.
Arguments spy_calls {R} _.
Arguments spied {R} _.

Definition spy_on {R A} (call : RunnerCall) (m : R → result A * R) (s : Spy R)
  : result A * Spy R :=
  let '(r, runner') := m (spied s) in
  (r, mkSpy (spy_calls s ++ [call]) runner').

#[global] Instance spy_runner {R} `{!TaskRunner R} : TaskRunner (Spy R) := {
  SimulatorRunner rt := r ← SimulatorRunner rt; Ok (mkSpy [] r);
  runner_reset name := spy_on (CalledReset name) (runner_reset name);
  runner_step actions := spy_on (CalledStep actions) (runner_step actions);
  runner_get_obs := spy_on CalledGetObs runner_get_obs;
  runner_dt s := runner_dt (spied s);
  runner_current_tasks s := runner_current_tasks (spied s)
}.

Section Methods.

Context {R : Type} `{!TaskRunner R}.

(** The attributes of a constructed [Env].  [_robot_name] is written
    once, by [_validate], before the constructor returns. *)
Record Env : Type := mkEnv {
  _render : option unit;
  _runtime : SimulatorRuntime;
  _robot_name : string;
  _current_task_name : option string;
  action_space : Space;
  observation_space : Space;
  _runner : R
}.

(** [Env.__init__], in the order of its statements: both spaces, then
    the checks, then the runner. *)
Definition __init__ (simulator_runtime : SimulatorRuntime) : result Env :=
  action_space ← _get_action_space simulator_runtime;
  observation_space ← _get_observation_space simulator_runtime;
  _robot_name ← _validate simulator_runtime;
  _runner ← SimulatorRunner simulator_runtime;
  Ok {| _render := None;
        _runtime := simulator_runtime;
        _robot_name := _robot_name;
        _current_task_name := None;
        action_space := action_space;
        observation_space := observation_space;
        _runner := _runner |}.

(** ** Methods

    A method runs on [self] and either returns or raises; the attributes
    it wrote before raising stay written. *)
Definition M (A : Type) : Type := Env → result A * Env.

#[global] Instance M_ret : MRet M := λ A a self, (Ok a, self).
#[global] Instance M_bind : MBind M := λ A B f m self,
  match m self with
  | (Ok a, self') => f a self'
  | (Err e, self') => (Err e, self')
  end.

(** read an attribute of [self] *)
Definition attr {A} (field : Env → A) : M A := λ self, (Ok (field self), self).

(** an expression that may raise *)
Definition eval {A} (r : result A) : M A := λ self, (r, self).

(** [self._current_task_name = v] *)
Definition set_current_task_name (v : option string) : M unit := λ self,
  (Ok (), {| _render := _render self;
             _runtime := _runtime self;
             _robot_name := _robot_name self;
             _current_task_name := v;
             action_space := action_space self;
             observation_space := observation_space self;
             _runner := _runner self |}).

(** a method call on [self._runner] *)
Definition on_runner {A} (call : R → result A * R) : M A := λ self,
  let '(r, runner') := call (_runner self) in
  (r, {| _render := _render self;
         _runtime := _runtime self;
         _robot_name := _robot_name self;
         _current_task_name := _current_task_name self;
         action_space := action_space self;
         observation_space := observation_space self;
         _runner := runner' |}).

(** a method call on [self._runtime.simulation_app]; the runner was built
    on the same runtime object, which no method of the bridge reads back
    through the runner *)
Definition on_simulation_app {A} (call : App → result A * App) : M A := λ self,
  let '(r, app') := call (simulation_app (_runtime self)) in
  (r, {| _render := _render self;
         _runtime := {| env_num := env_num (_runtime self);
                        config := config (_runtime self);
                        simulation_app := app' |};
         _robot_name := _robot_name self;
         _current_task_name := _current_task_name self;
         action_space := action_space self;
         observation_space := observation_space self;
         _runner := _runner self |}).

Definition RESET_INFO_TASK_RUNTIME : string := "task_runtime".

(** [Env.reset]; [seed] and [options] are not read. *)
Definition reset : M (Observation * Info) :=
  let obs : Observation := ∅ in
  let info : Info := ∅ in
  current ← attr _current_task_name;
  '(origin_obs, task_runtime) ← on_runner (runner_reset current);
  match task_runtime with
  | Some task_runtime =>
      set_current_task_name (Some (task_runtime_name task_runtime));;
      let info := <[RESET_INFO_TASK_RUNTIME := task_runtime]> info in
      by_robot ← eval (getitem origin_obs (task_runtime_name task_runtime));
      robot ← attr _robot_name;
      obs ← eval (getitem by_robot robot);
      mret (obs, info)
  | None => mret (obs, info)
  end.

(** [Env.step] *)
Definition step (action : Action) : M (Observation * float * bool * bool * Info) :=
  let obs : Observation := ∅ in
  let reward := 0%float in
  let terminated := true in
  let truncated := false in
  let info : Info := ∅ in
  current ← attr _current_task_name;
  match current with
  | None => mret (obs, reward, terminated, truncated, info)
  | Some task =>
      robot ← attr _robot_name;
      let _actions : ActionMap := {[ task := {[ robot := action ]} ]} in
      '(origin_obs, terminated_status) ← on_runner (runner_step _actions);
      by_robot ← eval (getitem origin_obs task);
      obs ← eval (getitem by_robot robot);
      terminated ← eval (getitem terminated_status task);
      mret (obs, reward, terminated, truncated, info)
  end.

(** [Env.get_dt] *)
Definition get_dt : M float := attr (λ self, runner_dt (_runner self)).

(** [Env.get_observations] *)
Definition get_observations : M Observation :=
  current ← attr _current_task_name;
  match current with
  | None => mret ∅
  | Some task =>
      _obs ← on_runner runner_get_obs;
      by_robot ← eval (getitem _obs task);
      robot ← attr _robot_name;
      eval (getitem by_robot robot)
  end.

(** [Env.render] *)
Definition render : M unit := mret ().

(** [Env.close] *)
Definition close : M unit := on_simulation_app app_close.

(** [Env.finished] *)
Definition finished : M bool :=
  attr (λ self, bool_decide (size (runner_current_tasks (_runner self)) = 0%nat)).

(** ** The life of a bridge: any sequence of calls from its client *)
Inductive MethodCall : Type :=
| CallReset
| CallStep (action : Action)
| CallGetObservations
| CallGetDt
| CallFinished
| CallClose
| CallRender.

(** [self] after the call, whether it returned or raised *)
Definition after (c : MethodCall) (self : Env) : Env :=
  match c with
  | CallReset => (reset self).2
  | CallStep action => (step action self).2
  | CallGetObservations => (get_observations self).2
  | CallGetDt => (get_dt self).2
  | CallFinished => (finished self).2
  | CallClose => (close self).2
  | CallRender => (render self).2
  end.

Definition after_all (cs : list MethodCall) (self : Env) : Env :=
  foldl (λ self c, after c self) self cs.

(** [keeps field m]: running [m] leaves [field] of [self] as it was,
    whether [m] returns or raises. *)
Definition keeps {A B} (field : Env → B) (m : M A) : Prop :=
  ∀ self, field (m self).2 = field self.

End Methods.

End Bridge.

#[global] Hint Mode TaskRunner - ! : typeclass_instances.

Arguments mkSpy {_ R} _ _.
Arguments spy_calls {_ R} _.
Arguments spied {_ R} _.

(** ** Vocabulary of the statements *)

(** The three messages of [_validate]. *)
Definition multi_env (count : Z) : exn :=
  ValueError ("Only support single env now, but env num is " +:+ py_str_int count).

Definition multi_agent (count : nat) : exn :=
  ValueError ("Only support single agent now, but episode requires "
              +:+ py_str_int (Z.of_nat count) +:+ " agents").

Definition heterogeneous_agents : exn :=
  ValueError "Only support single agent now, but episode requires multiple agents".

(** [named n episode]: the episode lists one robot, called [n]. *)
Definition named (n : option string) (episode : EpisodeCfg.t) : Prop :=
  ∃ robot0, EpisodeCfg.robots episode = [robot0] ∧ RobotCfg.name robot0 = n.

(** [self] with another runner, with another remembered task. *)
Definition with_runner `{Collaborators} {R : Type} (self : Env (R:=R)) (runner' : R) : Env :=
  mkEnv (_render self) (_runtime self) (_robot_name self) (_current_task_name self)
        (action_space self) (observation_space self) runner'.

Definition with_task `{Collaborators} {R : Type} (self : Env (R:=R)) (task : option string) : Env :=
  mkEnv (_render self) (_runtime self) (_robot_name self) task
        (action_space self) (observation_space self) (_runner self).

(** The calls a method makes on the runner, read off its body: [reset]
    always resets with the remembered name; [step] and
    [get_observations] call the runner only while a task is remembered;
    the other methods never do. *)
Definition calls_of `{Collaborators} {R : Type} (c : MethodCall) (self : Env (R:=R))
  : list RunnerCall :=
  match c with
  | CallReset => [CalledReset (_current_task_name self)]
  | CallStep action =>
      match _current_task_name self with
      | Some task => [CalledStep {[ task := {[ _robot_name self := action ]} ]}]
      | None => []
      end
  | CallGetObservations =>
      match _current_task_name self with
      | Some _ => [CalledGetObs]
      | None => []
      end
  | CallGetDt | CallFinished | CallClose | CallRender => []
  end.

(** The task name [reset] leaves remembered, from the name remembered
    before and the runner's answer: the descriptor's name when there is
    a descriptor, the old name otherwise. *)
Definition remembered_after `{Collaborators} (current : option string)
    (answer : result (gmap string (gmap string (gmap string ObsVal)) * option TaskRuntime))
  : option string :=
  match answer with
  | Ok (_, Some task_runtime) => Some (task_runtime_name task_runtime)
  | _ => current
  end.

(** ** The read-only property [Env.is_render] *)
Definition is_render `{Collaborators} {R : Type} : M (R:=R) (option unit) := attr _render.

(** ** [grutopia/core/util/__init__.py]: probes of the process

    [os.stat] and [os.environ] are inputs; [log.error] appends to the
    log. *)

(** what [os.stat] raises, with the text [str(e)] of any exception other
    than [FileNotFoundError] *)
Inductive os_exn : Type :=
| FileNotFoundError
| OtherError (text : string).

(** [is_in_container]; [os_stat path] is [None] when the call returns. *)
Definition is_in_container (os_stat : string → option os_exn) (log : list string)
  : bool * list string :=
  match os_stat "/.dockerenv" with
  | None => (true, log)
  | Some FileNotFoundError => (false, log)
  | Some (OtherError e) =>
      (false, (log ++ ["Error while checking if in container, assume False: " +:+ e])%list)
  end.

(** [str(e)] *)
Definition exn_text (e : exn) : string :=
  match e with
  | ValueError msg => msg
  | KeyError key => "'" +:+ key +:+ "'"
  | IndexError => "list index out of range"
  | Raised what => what
  end.

(** [has_display]; the values of [os.environ] are strings, so
    [display is not None] compares a string with [None]. *)
Definition has_display (environ : gmap string string) (log : list string)
  : bool * list string :=
  match getitem environ "DISPLAY" with
  | Ok display =>
      if bool_decide (Some display ≠ None) && bool_decide (display ≠ "")
      then (true, log)
      else (false, log)
  | Err (KeyError _) => (false, log)
  | Err e =>
      (false, (log ++ ["Error while checking if has display, assume False: "
                       +:+ exn_text e])%list)
  end.

(** ** A concrete simulator to run the bridge on *)
Module Fixture.

(** leaves of the raw configuration mapping *)
Inductive value : Type :=
| VStr (s : string)
| VEpisodes (l : list EpisodeCfg.t).

Definition space_of (kind : string) (ty : value) : result string :=
  match ty with
  | VStr s => if String.eqb s "SingleInferenceTask" then Ok (kind +:+ " of " +:+ s)
              else Err (Raised ("unknown task type " +:+ s))
  | VEpisodes _ => Err (Raised "task type is not a string")
  end.

Definition load (raw : gmap string (gmap string value)) : result ValidatedConfig.t :=
  task_config ← getitem raw "task_config";
  ty ← getitem task_config "type";
  episodes ← getitem task_config "episodes";
  match ty, episodes with
  | VStr ty, VEpisodes episodes => Ok (ValidatedConfig.mk (TaskCfg.mk ty episodes))
  | _, _ => Err (Raised "validation error")
  end.

#[export] Instance world : Collaborators := {
  Space := string;
  ConfigValue := value;
  App := bool;
  ObsVal := Z;
  Action := Z;
  TaskRuntime := string * nat;
  get_action_space_by_task := space_of "action space";
  get_observation_space_by_task := space_of "observation space";
  new_ValidatedConfig := load;
  task_runtime_name := fst;
  app_close := λ _, (Ok (), false)
}.

Definition robot (name : option string) : RobotCfg.t :=
  RobotCfg.mk name (Some "JetbotRobot") (Some "/World/jetbot").

Definition episode (names : list (option string)) : EpisodeCfg.t :=
  EpisodeCfg.mk (robot <$> names).

Definition runtime (n : Z) (ty : string) (episodes : list (list (option string)))
  : SimulatorRuntime :=
  mkRuntime n {[ "task_config" := {[ "type" := VStr ty;
                                      "episodes" := VEpisodes (episode <$> episodes) ]} ]}
            true.

(** A scripted runner: the tasks still to run, the head being the live
    one, and the ticks the live task has been stepped.  Every task drives
    the robot ["jetbot_0"] and terminates on its second tick. *)
Record Script : Type := mkScript { queue : list string; ticks : nat }.

Definition observe (s : Script) : gmap string (gmap string (gmap string Z)) :=
  match queue s with
  | [] => ∅
  | task :: _ => {[ task := {[ "jetbot_0" := {[ "tick" := Z.of_nat (ticks s) ]} ]} ]}
  end.

Definition script_reset (name : option string) (s : Script)
  : result (gmap string (gmap string (gmap string Z)) * option (string * nat)) * Script :=
  let q := match name, queue s with
           | Some done_, task :: rest => if String.eqb done_ task then rest else queue s
           | _, _ => queue s
           end in
  let s' := mkScript q 0 in
  (Ok (observe s', (λ task, (task, length q)) <$> head q), s').

Definition script_step (actions : gmap string (gmap string Z)) (s : Script)
  : result (gmap string (gmap string (gmap string Z)) * gmap string bool) * Script :=
  let s' := mkScript (queue s) (S (ticks s)) in
  (Ok (observe s', match queue s with
                   | [] => ∅
                   | task :: _ => {[ task := bool_decide (2 ≤ ticks s')%nat ]}
                   end), s').

#[export] Instance script : TaskRunner Script := {
  SimulatorRunner rt :=
    cfg ← load (config rt);
    Ok (mkScript (imap (λ i _, "task_" +:+ py_str_int (Z.of_nat i))
                       (TaskCfg.episodes (ValidatedConfig.task_config cfg))) 0);
  runner_reset := script_reset;
  runner_step := script_step;
  runner_get_obs s := (Ok (observe s), s);
  runner_dt _ := 0.5%float;
  runner_current_tasks s := list_to_set (queue s)
}.

(** Runtimes and bridges the statements are tried on. *)
Definition task_type : string := "SingleInferenceTask".
Definition jetbot : option string := Some "jetbot".
Definition aliengo : option string := Some "aliengo".

Definition bridge (rt : SimulatorRuntime) (robot : string) (task : option string)
    (runner : Spy Script) : Env :=
  mkEnv None rt robot task ("action space of " +:+ task_type)
        ("observation space of " +:+ task_type) runner.

(** two episodes of the same robot *)
Definition two_episodes : SimulatorRuntime := runtime 1 task_type [[jetbot]; [jetbot]].

(** the bridge for [two_episodes]: as constructed, after its first
    [reset], after one [step] more, and on its last task *)
Definition fresh : Env :=
  bridge two_episodes "jetbot_0" None (mkSpy [] (mkScript ["task_0"; "task_1"] 0)).

Definition started : Env :=
  bridge two_episodes "jetbot_0" (Some "task_0")
         (mkSpy [CalledReset None] (mkScript ["task_0"; "task_1"] 0)).

Definition stepped : Env :=
  bridge two_episodes "jetbot_0" (Some "task_0")
         (mkSpy [CalledReset None; CalledStep {[ "task_0" := {[ "jetbot_0" := 7 ]} ]}]
                (mkScript ["task_0"; "task_1"] 1)).

Definition last_task : Env :=
  bridge two_episodes "jetbot_0" (Some "task_1") (mkSpy [] (mkScript ["task_1"] 2)).

(** A runner that plays back canned answers, one per call, and raises
    when it has none left. *)
Record Mock : Type := mkMock {
  resets : list (result (gmap string (gmap string (gmap string Z)) * option (string * nat)));
  steps : list (result (gmap string (gmap string (gmap string Z)) * gmap string bool));
  observations : list (result (gmap string (gmap string (gmap string Z))))
}.

Definition pop {A} (answers : list (result A)) : result A * list (result A) :=
  match answers with
  | [] => (Err (Raised "no answer left"), [])
  | answer :: rest => (answer, rest)
  end.

#[export] Instance mock : TaskRunner Mock := {
  SimulatorRunner _ := Ok (mkMock [] [] []);
  runner_reset _ m :=
    let '(r, rest) := pop (resets m) in (r, mkMock rest (steps m) (observations m));
  runner_step _ m :=
    let '(r, rest) := pop (steps m) in (r, mkMock (resets m) rest (observations m));
  runner_get_obs m :=
    let '(r, rest) := pop (observations m) in (r, mkMock (resets m) (steps m) rest);
  runner_dt _ := 0.5%float;
  runner_current_tasks _ := ∅
}.

(** a bridge for [two_episodes] on canned answers, with the calls its
    runner has recorded *)
Definition mocked (task : option string) (calls : list RunnerCall) (m : Mock) : Env :=
  mkEnv None two_episodes "jetbot_0" task ("action space of " +:+ task_type)
        ("observation space of " +:+ task_type) (mkSpy calls m).

Definition no_answer : Mock := mkMock [] [] [].

Definition crash : exn := Raised "simulation crashed".

(** observations of [task] for the robot ["jetbot_0"] *)
Definition seen_by_jetbot (task : string) (tick : Z)
  : gmap string (gmap string (gmap string Z)) :=
  {[ task := {[ "jetbot_0" := {[ "tick" := tick ]} ]} ]}.

End Fixture.

(** * Properties *)

Section Validation.

Lemma validate_episodes_one robot_name robot0 episode rest :
  EpisodeCfg.robots episode = [robot0] →
  validate_episodes robot_name (episode :: rest) =
    match robot_name with
    | None => validate_episodes (RobotCfg.name robot0) rest
    | Some _ =>
        if bool_decide (robot_name ≠ RobotCfg.name robot0)
        then Err heterogeneous_agents
        else validate_episodes robot_name rest
    end.
Proof.
  intros Hone. cbn [validate_episodes]. rewrite Hone. cbn [length].
  rewrite bool_decide_eq_false_2 by (intros Hne; by apply Hne).
  reflexivity.
Qed.

Lemma validate_episodes_count robot_name episode rest :
  length (EpisodeCfg.robots episode) ≠ 1%nat →
  validate_episodes robot_name (episode :: rest) =
    Err (multi_agent (length (EpisodeCfg.robots episode))).
Proof.
  intros Hlen. cbn [validate_episodes].
  by rewrite bool_decide_eq_true_2.
Qed.

(** Episodes that agree with the name already seen are skipped. *)
Lemma validate_episodes_agree n seen rest :
  Forall (named (Some n)) seen →
  validate_episodes (Some n) (seen ++ rest) = validate_episodes (Some n) rest.
Proof.
  induction 1 as [|episode seen (robot0 & Hone & Hname) _ IH]; [done|].
  rewrite <- app_comm_cons, (validate_episodes_one _ robot0) by done.
  rewrite Hname, bool_decide_eq_false_2 by (intros Hne; by apply Hne).
  exact IH.
Qed.

(** From the first episode on, the local variable holds its robot's name
    when that name is a string. *)
Lemma validate_episodes_first n first seen rest :
  named (Some n) first →
  Forall (named (Some n)) seen →
  validate_episodes None (first :: seen ++ rest) = validate_episodes (Some n) rest.
Proof.
  intros (robot0 & Hone & Hname) Hseen.
  rewrite (validate_episodes_one _ robot0) by done.
  rewrite Hname. by apply validate_episodes_agree.
Qed.

(** When every robot of every episode carries the name [n], a run of the
    loop that started from [n] ends on [n]. *)
Lemma validate_episodes_same n episodes robot_name :
  (∀ episode robot, episode ∈ episodes → robot ∈ EpisodeCfg.robots episode →
                    RobotCfg.name robot = n) →
  validate_episodes n episodes = Ok robot_name →
  robot_name = n.
Proof.
  induction episodes as [|episode rest IH]; intros Hall Hrun.
  - cbn in Hrun. congruence.
  - cbn [validate_episodes] in Hrun.
    case_bool_decide; [done|].
    destruct (EpisodeCfg.robots episode !! 0%nat) as [robot0|] eqn:H0; [|done].
    assert (RobotCfg.name robot0 = n) as Hname.
    { apply (Hall episode); [left|]. by eapply list_elem_of_lookup_2. }
    rewrite Hname in Hrun.
    assert (validate_episodes n rest = Ok robot_name) as Hrest.
    { destruct n; [|done]. by rewrite bool_decide_eq_false_2 in Hrun by (intros Hne; by apply Hne). }
    apply IH; [|done]. intros e r He. apply Hall. by right.
Qed.

Lemma validate_episodes_shared n episodes robot_name :
  episodes ≠ [] →
  (∀ episode robot, episode ∈ episodes → robot ∈ EpisodeCfg.robots episode →
                    RobotCfg.name robot = n) →
  validate_episodes None episodes = Ok robot_name →
  robot_name = n.
Proof.
  destruct episodes as [|episode rest]; [done|]. intros _ Hall Hrun.
  destruct n as [n|]; [|by apply (validate_episodes_same None (episode :: rest))].
  cbn [validate_episodes] in Hrun.
  case_bool_decide; [done|].
  destruct (EpisodeCfg.robots episode !! 0%nat) as [robot0|] eqn:H0; [|done].
  assert (RobotCfg.name robot0 = Some n) as Hname.
  { apply (Hall episode); [left|]. by eapply list_elem_of_lookup_2. }
  rewrite Hname in Hrun.
  apply (validate_episodes_same (Some n) rest); [|done].
  intros e r He. apply Hall. by right.
Qed.

(** A run of the loop that completes has seen one robot per episode. *)
Lemma validate_episodes_single robot_name episodes result_name :
  validate_episodes robot_name episodes = Ok result_name →
  Forall (λ episode, length (EpisodeCfg.robots episode) = 1%nat) episodes.
Proof.
  revert robot_name. induction episodes as [|episode rest IH]; intros robot_name Hrun; [done|].
  cbn [validate_episodes] in Hrun.
  case_bool_decide as Hlen; [done|].
  destruct (EpisodeCfg.robots episode !! 0%nat) as [robot0|]; [|done].
  constructor; [done|].
  destruct robot_name; [case_bool_decide; [done|]|]; by eapply IH.
Qed.

(** A run of the loop that completes ends on the name it started from,
    when it started from one, and on every name it met. *)
Lemma validate_episodes_named robot_name episodes result_name :
  validate_episodes robot_name episodes = Ok result_name →
  (∀ n, robot_name = Some n → result_name = Some n) ∧
  (∀ episode robot n, episode ∈ episodes → robot ∈ EpisodeCfg.robots episode →
                      RobotCfg.name robot = Some n → result_name = Some n).
Proof.
  revert robot_name. induction episodes as [|episode rest IH]; intros robot_name Hrun.
  { cbn in Hrun. split; [intros n ->; congruence|]. intros ??? Hin. by apply elem_of_nil in Hin. }
  cbn [validate_episodes] in Hrun.
  case_bool_decide as Hlen; [done|].
  destruct (EpisodeCfg.robots episode) as [|robot0 [|? ?]] eqn:Hrobots; [done| |done].
  cbn in Hrun.
  assert (∃ next, validate_episodes next rest = Ok result_name ∧
                  (∀ n, robot_name = Some n → next = Some n) ∧
                  (∀ n, RobotCfg.name robot0 = Some n → next = Some n))
    as (next & Hnext & Hstart & Hhere).
  { destruct robot_name as [n0|].
    - case_bool_decide as Hne; [done|].
      exists (Some n0). split; [done|]. split; [done|]. intros n Hn. congruence.
    - exists (RobotCfg.name robot0). split; [done|]. split; [done|]. done. }
  destruct (IH _ Hnext) as [IHstart IHrest].
  split.
  - intros n Hn. apply IHstart. by apply Hstart.
  - intros e r n He Hr Hname. apply elem_of_cons in He as [->|He].
    + rewrite Hrobots in Hr. apply list_elem_of_singleton in Hr as ->.
      apply IHstart. by apply Hhere.
    + by eapply IHrest.
Qed.

(** X4: episodes at the head of the list whose one robot has no name
    (its [name] is [None]) leave the local variable unset: the loop
    treats the rest of the list as if they were not there, so their
    robot is compared with no other. *)
Theorem null_names_skipped nameless rest :
  Forall (named None) nameless →
  validate_episodes None (nameless ++ rest) = validate_episodes None rest.
Proof.
  induction 1 as [|episode nameless (robot0 & Hone & Hname) _ IH]; [done|].
  rewrite <- app_comm_cons, (validate_episodes_one _ robot0) by done.
  by rewrite Hname.
Qed.

End Validation.

Section Construction.

Context `{Collaborators} {R : Type} `{!TaskRunner R}.

Implicit Types (rt : SimulatorRuntime) (cfg : ValidatedConfig.t).

(** [__init__] once both spaces are resolved. *)
Lemma init_resolved rt (a o : Space) :
  _get_action_space rt = Ok a →
  _get_observation_space rt = Ok o →
  __init__ (R:=R) rt =
    (_robot_name ← _validate rt;
     _runner ← SimulatorRunner rt;
     Ok (mkEnv None rt _robot_name None a o _runner)).
Proof. intros Ha Ho. unfold __init__. by rewrite Ha, Ho. Qed.

(** [_validate] once the count of environments is accepted and the
    configuration is loaded. *)
Lemma validate_loaded rt cfg :
  (env_num rt ≤ 1)%Z →
  new_ValidatedConfig (config rt) = Ok cfg →
  _validate rt =
    (robot_name ← validate_episodes None (TaskCfg.episodes (ValidatedConfig.task_config cfg));
     Ok (py_str robot_name +:+ "_0")).
Proof.
  intros Hnum Hcfg. unfold _validate.
  rewrite bool_decide_eq_false_2 by lia. by rewrite Hcfg.
Qed.

(** C1, as the code has it: a runtime whose [env_num] is greater than 1
    is rejected by [_validate] with the error that prints the count, and,
    when the task type resolves to an action and an observation space,
    that error is what the constructor raises. *)
Theorem multi_env_rejected rt (a o : Space) :
  env_num rt > 1 →
  _get_action_space rt = Ok a →
  _get_observation_space rt = Ok o →
  _validate rt = Err (multi_env (env_num rt)) ∧
  __init__ (R:=R) rt = Err (multi_env (env_num rt)).
Proof.
  intros Hnum Ha Ho.
  assert (_validate rt = Err (multi_env (env_num rt))) as Hv.
  { unfold _validate. by rewrite bool_decide_eq_true_2. }
  split; [done|]. by rewrite (init_resolved _ a o), Hv.
Qed.

(** C6, as the code has it: the checks run in the order of the episodes,
    after the check of [env_num] and the resolution of the spaces.  When
    the episodes before [episode] each list one robot, all called [n],
    then (1) if [episode] does not list exactly one robot, construction
    raises the multi-agent error with the length of its robot list, and
    (2) if there is an episode before it and [episode] lists one robot
    whose name is not [n], construction raises the heterogeneous-agent
    error. *)
Theorem episode_rejected rt (a o : Space) cfg n seen episode rest :
  (env_num rt ≤ 1)%Z →
  _get_action_space rt = Ok a →
  _get_observation_space rt = Ok o →
  new_ValidatedConfig (config rt) = Ok cfg →
  TaskCfg.episodes (ValidatedConfig.task_config cfg) = (seen ++ episode :: rest)%list →
  Forall (named (Some n)) seen →
  (length (EpisodeCfg.robots episode) ≠ 1%nat →
   __init__ (R:=R) rt = Err (multi_agent (length (EpisodeCfg.robots episode)))) ∧
  (seen ≠ [] → (∃ other, named other episode ∧ other ≠ Some n) →
   __init__ (R:=R) rt = Err heterogeneous_agents).
Proof.
  intros Hnum Ha Ho Hcfg Heps Hseen.
  rewrite (init_resolved _ a o), (validate_loaded _ cfg), Heps by done.
  assert (validate_episodes None (seen ++ episode :: rest) =
          match seen with
          | [] => validate_episodes None (episode :: rest)
          | _ => validate_episodes (Some n) (episode :: rest)
          end) as ->.
  { destruct Hseen as [|first seen Hfirst Hseen]; [done|].
    by apply validate_episodes_first. }
  split.
  - intros Hlen. destruct seen; by rewrite validate_episodes_count.
  - intros Hne (other & (robot0 & Hone & Hname) & Hother).
    destruct seen; [done|].
    rewrite (validate_episodes_one _ robot0), Hname by done.
    by rewrite bool_decide_eq_true_2 by congruence.
Qed.

(** C9: the spaces are resolved before [_validate] runs: when the space
    utility raises on the configured task type, for the action space or,
    that one resolved, for the observation space, the constructor raises
    that very error, whatever [env_num] and the episodes are, also when
    [_validate] would have raised. *)
Theorem space_error_first rt ty e :
  config_task_type rt = Ok ty →
  get_action_space_by_task ty = Err e ∨
    (is_ok (get_action_space_by_task ty) = true ∧ get_observation_space_by_task ty = Err e) →
  __init__ (R:=R) rt = Err e.
Proof.
  intros Hty Hspace. unfold __init__, _get_action_space, _get_observation_space.
  rewrite Hty. cbn.
  destruct Hspace as [Ha|[Ha Ho]].
  - by rewrite Ha.
  - destruct (get_action_space_by_task ty); [|done]. cbn. by rewrite Ho.
Qed.

(** C10: with no episode at all (and [env_num] 1, a task type that
    resolves, a runner that starts) the loop of [_validate] never runs,
    no check raises, and the constructor returns a bridge whose
    [_robot_name] is the text ["None_0"]. *)
Theorem no_episode_robot_name rt (a o : Space) cfg (runner : R) :
  env_num rt = 1 →
  _get_action_space rt = Ok a →
  _get_observation_space rt = Ok o →
  new_ValidatedConfig (config rt) = Ok cfg →
  TaskCfg.episodes (ValidatedConfig.task_config cfg) = [] →
  SimulatorRunner rt = Ok runner →
  _validate rt = Ok "None_0" ∧
  __init__ rt = Ok (mkEnv None rt "None_0" None a o runner).
Proof.
  intros Hnum Ha Ho Hcfg Heps Hrunner.
  assert (_validate rt = Ok "None_0") as Hv.
  { rewrite (validate_loaded _ cfg), Heps by (done || lia). reflexivity. }
  split; [done|].
  by rewrite (init_resolved _ a o), Hv by done; cbn; rewrite Hrunner.
Qed.

End Construction.

Section Protocol.

Context `{Collaborators} {R : Type} `{!TaskRunner R}.

Implicit Types (self : Env (R:=R)) (action : Action).

Lemma keeps_ret {A B} (field : Env (R:=R) → B) (a : A) : keeps field (mret a).
Proof. by intros self. Qed.

Lemma keeps_attr {A B} (field : Env (R:=R) → B) (g : Env → A) : keeps field (attr g).
Proof. by intros self. Qed.

Lemma keeps_eval {A B} (field : Env (R:=R) → B) (r : result A) : keeps field (eval r).
Proof. by intros self. Qed.

Lemma keeps_bind {A A' B} (field : Env (R:=R) → B) (m : M A) (k : A → M A') :
  keeps field m → (∀ a, keeps field (k a)) → keeps field (m ≫= k).
Proof.
  intros Hm Hk self. unfold mbind, M_bind.
  specialize (Hm self). destruct (m self) as [[a|e] self']; cbn in *.
  - by rewrite Hk.
  - done.
Qed.

Lemma keeps_on_runner {A B} (field : Env (R:=R) → B) (call : R → result A * R) :
  (∀ self runner', field (mkEnv (_render self) (_runtime self) (_robot_name self)
                                (_current_task_name self) (action_space self)
                                (observation_space self) runner') = field self) →
  keeps field (on_runner call).
Proof.
  intros Hfield self. unfold on_runner.
  destruct (call (_runner self)) as [r runner']. apply Hfield.
Qed.

Lemma keeps_robot_name_set v : keeps (R:=R) _robot_name (set_current_task_name v).
Proof. by intros self. Qed.

Lemma keeps_robot_name_close {A} (call : App → result A * App) :
  keeps (R:=R) _robot_name (on_simulation_app call).
Proof.
  intros self. unfold on_simulation_app.
  by destruct (call (simulation_app (_runtime self))).
Qed.

Lemma keeps_task_close {A} (call : App → result A * App) :
  keeps (R:=R) _current_task_name (on_simulation_app call).
Proof.
  intros self. unfold on_simulation_app.
  by destruct (call (simulation_app (_runtime self))).
Qed.

Create HintDb frame discriminated.
#[local] Hint Resolve keeps_ret keeps_attr keeps_eval keeps_robot_name_set
  keeps_robot_name_close keeps_task_close : frame.
#[local] Hint Extern 1 (keeps _ (on_runner _)) =>
  apply keeps_on_runner; intros; reflexivity : frame.
#[local] Hint Extern 2 (keeps _ (_ ≫= _)) => apply keeps_bind; [|intros] : frame.
#[local] Hint Extern 3 (keeps _ (match ?x with _ => _ end)) => destruct x : frame.
#[local] Hint Extern 3 (keeps _ (let '(_, _) := ?x in _)) => destruct x : frame.

Ltac frame := unfold reset, step, get_observations, get_dt, finished, close, render;
              auto 20 with frame.

(** No method assigns [_robot_name], on any path. *)
Lemma robot_name_kept (c : MethodCall) self :
  _robot_name (after c self) = _robot_name self.
Proof.
  destruct c; unfold after;
    match goal with |- _ (?m self).2 = _ => revert self; change (keeps (R:=R) _robot_name m) end;
    frame.
Qed.

Lemma robot_name_kept_all (cs : list MethodCall) self :
  _robot_name (after_all cs self) = _robot_name self.
Proof.
  revert self. induction cs as [|c cs IH]; intros self; [done|].
  unfold after_all in *. cbn [foldl]. by rewrite IH, robot_name_kept.
Qed.

(** [step] does not assign [_current_task_name], on any path. *)
Lemma step_keeps_task action : keeps (R:=R) _current_task_name (step action).
Proof. frame. Qed.

Lemma queries_keep_task :
  keeps (R:=R) _current_task_name get_observations ∧ keeps (R:=R) _current_task_name get_dt ∧
  keeps (R:=R) _current_task_name finished ∧ keeps (R:=R) _current_task_name close ∧
  keeps (R:=R) _current_task_name render.
Proof. repeat split; frame. Qed.

(** Open a method up to the calls on its collaborators. *)
Ltac run_method :=
  unfold reset, step, get_observations, mbind, mret, M_bind, M_ret, attr, eval,
    on_runner, set_current_task_name, getitem;
  cbn [fst snd _render _runtime _robot_name _current_task_name action_space
       observation_space _runner].

(** What a successful constructor has done. *)
Lemma init_ok rt (env : Env (R:=R)) :
  __init__ rt = Ok env →
  ∃ a o robot runner,
    _validate rt = Ok robot ∧ SimulatorRunner rt = Ok runner ∧
    env = mkEnv None rt robot None a o runner.
Proof.
  unfold __init__, mbind, result_bind. intros Hinit.
  destruct (_get_action_space rt) as [a|]; [|done].
  destruct (_get_observation_space rt) as [o|]; [|done].
  destruct (_validate rt) as [robot|]; [|done].
  destruct (SimulatorRunner rt) as [runner|]; [|done].
  exists a, o, robot, runner. by inversion Hinit.
Qed.

Lemma validate_ok rt cfg robot :
  _validate rt = Ok robot →
  new_ValidatedConfig (config rt) = Ok cfg →
  ∃ robot_name,
    validate_episodes None (TaskCfg.episodes (ValidatedConfig.task_config cfg)) = Ok robot_name ∧
    robot = py_str robot_name +:+ "_0".
Proof.
  unfold _validate. case_bool_decide; [done|]. intros Hv Hcfg.
  rewrite Hcfg in Hv. cbn in Hv.
  destruct (validate_episodes None _) as [robot_name|]; [|done].
  exists robot_name. split; [done|]. cbn in Hv. by inversion Hv.
Qed.

(** C7: when the constructor returns a bridge for a configuration whose
    episodes (there is at least one) name no robot but [N], the
    [_robot_name] of that bridge is the text of [N] followed by ["_0"],
    and it still is after any sequence of [reset], [step],
    [get_observations], [get_dt], [finished], [close] and [render],
    whether these calls return or raise. *)
Theorem robot_name_fixed rt cfg (N : option string) (env : Env (R:=R)) :
  __init__ rt = Ok env →
  new_ValidatedConfig (config rt) = Ok cfg →
  TaskCfg.episodes (ValidatedConfig.task_config cfg) ≠ [] →
  (∀ episode robot,
     episode ∈ TaskCfg.episodes (ValidatedConfig.task_config cfg) →
     robot ∈ EpisodeCfg.robots episode → RobotCfg.name robot = N) →
  _robot_name env = py_str N +:+ "_0" ∧
  ∀ cs : list MethodCall, _robot_name (after_all cs env) = py_str N +:+ "_0".
Proof.
  intros Hinit Hcfg Hsome Hall.
  assert (_robot_name env = py_str N +:+ "_0") as Hname.
  { destruct (init_ok _ _ Hinit) as (a & o & robot & runner & Hv & _ & ->).
    destruct (validate_ok _ _ _ Hv Hcfg) as (robot_name & Hloop & ->).
    cbn. by rewrite (validate_episodes_shared N _ robot_name Hsome Hall Hloop). }
  split; [done|]. intros cs. by rewrite robot_name_kept_all.
Qed.

(** C2: when the runner, reset with the task name the bridge remembers,
    returns a descriptor named [T] and observations that hold [obsX] for
    [T] and the bridge's robot, [reset] returns [obsX] with an info map
    that holds the descriptor under ['task_runtime'] and nothing else,
    and the bridge remembers [T]. *)
Theorem reset_with_task self origin_obs descriptor runner' T by_robot obsX :
  runner_reset (_current_task_name self) (_runner self)
    = (Ok (origin_obs, Some descriptor), runner') →
  task_runtime_name descriptor = T →
  origin_obs !! T = Some by_robot →
  by_robot !! _robot_name self = Some obsX →
  reset self =
    (Ok (obsX, {[ "task_runtime" := descriptor ]}),
     mkEnv (_render self) (_runtime self) (_robot_name self) (Some T)
           (action_space self) (observation_space self) runner') ∧
  _current_task_name (reset self).2 = Some T.
Proof.
  intros Hreset <- Htask Hrobot.
  assert (reset self =
    (Ok (obsX, {[ "task_runtime" := descriptor ]}),
     mkEnv (_render self) (_runtime self) (_robot_name self)
           (Some (task_runtime_name descriptor))
           (action_space self) (observation_space self) runner')) as ->.
  { run_method. rewrite Hreset. cbn. rewrite Htask. cbn. rewrite Hrobot.
    by rewrite insert_empty. }
  done.
Qed.

(** C5: when the runner's reset returns no descriptor, [reset] returns an
    empty observation and an empty info map, and the remembered task name
    is the one from before the call, null or not. *)
Theorem reset_without_task self origin_obs runner' :
  runner_reset (_current_task_name self) (_runner self) = (Ok (origin_obs, None), runner') →
  reset self =
    (Ok (∅, ∅),
     mkEnv (_render self) (_runtime self) (_robot_name self) (_current_task_name self)
           (action_space self) (observation_space self) runner') ∧
  _current_task_name (reset self).2 = _current_task_name self.
Proof.
  intros Hreset.
  assert (reset self =
    (Ok (∅, ∅),
     mkEnv (_render self) (_runtime self) (_robot_name self) (_current_task_name self)
           (action_space self) (observation_space self) runner')) as ->.
  { run_method. by rewrite Hreset. }
  done.
Qed.

(** [step] while a task is remembered: one call of the runner's step,
    then the three subscripts. *)
Lemma step_with_task action self T :
  _current_task_name self = Some T →
  step action self =
    let '(r, runner') := runner_step {[ T := {[ _robot_name self := action ]} ]} (_runner self) in
    let self' := mkEnv (_render self) (_runtime self) (_robot_name self)
                       (_current_task_name self)
                       (action_space self) (observation_space self) runner' in
    (('(origin_obs, terminated_status) ← r;
      by_robot ← getitem origin_obs T;
      obs ← getitem by_robot (_robot_name self);
      terminated ← getitem terminated_status T;
      Ok (obs, 0%float, terminated, false, ∅)),
     self').
Proof.
  intros Htask. unfold step, mbind, mret, M_bind, M_ret, attr, eval, on_runner, result_bind.
  cbn [fst snd _render _runtime _robot_name _current_task_name action_space
       observation_space _runner].
  rewrite Htask.
  destruct (runner_step _ _) as [[[origin_obs terminated_status]|e] runner'];
    rewrite ?Htask; [|done].
  cbn. destruct (getitem origin_obs T) as [by_robot|]; [|done].
  destruct (getitem by_robot _); [|done].
  by destruct (getitem terminated_status T).
Qed.

(** Whatever [step] returns, its reward is [0.0], its truncated flag is
    false and its info map is empty. *)
Lemma step_constants action self obs reward terminated truncated info :
  (step action self).1 = Ok (obs, reward, terminated, truncated, info) →
  reward = 0%float ∧ truncated = false ∧ info = ∅.
Proof.
  destruct (_current_task_name self) as [T|] eqn:Htask.
  - rewrite (step_with_task _ _ T Htask).
    destruct (runner_step _ _) as [[[origin_obs terminated_status]|e] runner']; [|done].
    cbn. destruct (getitem origin_obs T) as [by_robot|]; [|done].
    cbn. destruct (getitem by_robot _); [|done].
    cbn. destruct (getitem terminated_status T); [|done].
    cbn. intros [= <- <- <- <- <-]. done.
  - unfold step, mbind, M_bind, attr. cbn. rewrite Htask. cbn.
    intros [= <- <- <- <- <-]. done.
Qed.

(** [step] with no task remembered, on any runner. *)
Lemma step_idle action (self : Env (R:=R)) :
  _current_task_name self = None →
  step action self = (Ok (∅, 0%float, true, false, ∅), self).
Proof. intros Htask. unfold step, mbind, M_bind, attr. cbn. by rewrite Htask. Qed.

(** [reset], by the answer of the runner. *)
Lemma reset_run self :
  reset self =
    let '(r, runner') := runner_reset (_current_task_name self) (_runner self) in
    match r with
    | Err e => (Err e, with_runner self runner')
    | Ok (_, None) => (Ok (∅, ∅), with_runner self runner')
    | Ok (origin_obs, Some task_runtime) =>
        ((by_robot ← getitem origin_obs (task_runtime_name task_runtime);
          obs ← getitem by_robot (_robot_name self);
          Ok (obs, {[ "task_runtime" := task_runtime ]})),
         with_task (with_runner self runner') (Some (task_runtime_name task_runtime)))
    end.
Proof.
  unfold reset, mbind, mret, M_bind, M_ret, attr, eval, on_runner,
    set_current_task_name, result_bind, with_runner, with_task.
  cbn [fst snd _render _runtime _robot_name _current_task_name action_space
       observation_space _runner].
  destruct (runner_reset _ _) as [[[origin_obs [task_runtime|]]|e] runner']; [|done..].
  cbn. destruct (getitem origin_obs _) as [by_robot|]; [|done].
  cbn. destruct (getitem by_robot _); [|done].
  by rewrite insert_empty.
Qed.

(** [get_observations] while a task is remembered. *)
Lemma get_observations_run self T :
  _current_task_name self = Some T →
  get_observations self =
    let '(r, runner') := runner_get_obs (_runner self) in
    ((_obs ← r; by_robot ← getitem _obs T; getitem by_robot (_robot_name self)),
     with_runner self runner').
Proof.
  intros Htask.
  unfold get_observations, mbind, mret, M_bind, M_ret, attr, eval, on_runner,
    result_bind, with_runner.
  cbn [fst snd _render _runtime _robot_name _current_task_name action_space
       observation_space _runner].
  rewrite Htask.
  destruct (runner_get_obs _) as [[_obs|e] runner']; rewrite ?Htask; [|done].
  cbn. destruct (getitem _obs T) as [by_robot|]; [|done].
  cbn. by destruct (getitem by_robot _).
Qed.

Lemma get_observations_idle self :
  _current_task_name self = None → get_observations self = (Ok ∅, self).
Proof. intros Htask. unfold get_observations, mbind, M_bind, attr. cbn. by rewrite Htask. Qed.

(** The name [reset] leaves remembered, also when it raises. *)
Lemma reset_remembers self :
  _current_task_name (reset self).2 =
    remembered_after (_current_task_name self)
                     (runner_reset (_current_task_name self) (_runner self)).1.
Proof.
  rewrite reset_run.
  by destruct (runner_reset _ _) as [[[origin_obs [task_runtime|]]|e] runner'].
Qed.

Lemma remembered_after_some current answer :
  is_Some current → is_Some (remembered_after current answer).
Proof. intros Hsome. destruct answer as [[? [?|]]|]; cbn; eauto. Qed.

(** A field that each method keeps is kept by every sequence of calls. *)
Lemma kept_by_all {B} (field : Env (R:=R) → B) :
  (∀ c self, field (after c self) = field self) →
  ∀ cs self, field (after_all cs self) = field self.
Proof.
  intros Hone cs. induction cs as [|c cs IH]; intros self; [done|].
  unfold after_all in *. cbn [foldl]. by rewrite IH, Hone.
Qed.

#[local] Hint Extern 1 (keeps _ (set_current_task_name _)) =>
  intros ?; reflexivity : frame.
#[local] Hint Extern 1 (keeps _ (on_simulation_app _)) =>
  let self := fresh "self" in
  intros self; unfold on_simulation_app;
  destruct (app_close (simulation_app (_runtime self))); reflexivity : frame.

Ltac frame_of field :=
  let c := fresh "c" in
  let self := fresh "self" in
  intros c self; destruct c; unfold after;
  match goal with
  | |- context [(?m self).2] => revert self; change (keeps (R:=R) field m)
  end;
  frame.

Lemma spaces_kept (c : MethodCall) self :
  action_space (after c self) = action_space self ∧
  observation_space (after c self) = observation_space self.
Proof.
  split; revert c self.
  - frame_of (action_space (R:=R)).
  - frame_of (observation_space (R:=R)).
Qed.

Lemma render_kept (c : MethodCall) self : _render (after c self) = _render self.
Proof. revert c self. frame_of (_render (R:=R)). Qed.

Lemma configuration_kept (c : MethodCall) self :
  env_num (_runtime (after c self)) = env_num (_runtime self) ∧
  config (_runtime (after c self)) = config (_runtime self).
Proof.
  split; revert c self.
  - frame_of (λ self : Env (R:=R), env_num (_runtime self)).
  - frame_of (λ self : Env (R:=R), config (_runtime self)).
Qed.

(** X6: when the runner's reset returns a descriptor but its
    observations have no entry for the descriptor's task, or none for
    the bridge's robot under that task, [reset] raises the [KeyError] of
    the missing key; the descriptor's name is remembered all the same,
    since it is stored before the observation is read. *)
Theorem reset_missing_entry self origin_obs descriptor runner' :
  runner_reset (_current_task_name self) (_runner self)
    = (Ok (origin_obs, Some descriptor), runner') →
  (origin_obs !! task_runtime_name descriptor = None →
   reset self =
     (Err (KeyError (task_runtime_name descriptor)),
      with_task (with_runner self runner') (Some (task_runtime_name descriptor)))) ∧
  (∀ by_robot,
     origin_obs !! task_runtime_name descriptor = Some by_robot →
     by_robot !! _robot_name self = None →
     reset self =
       (Err (KeyError (_robot_name self)),
        with_task (with_runner self runner') (Some (task_runtime_name descriptor)))).
Proof.
  intros Hreset. rewrite reset_run, Hreset. unfold getitem. split.
  - by intros ->.
  - intros by_robot -> Hrobot. cbn. by rewrite Hrobot.
Qed.

(** X8: while the task [T] is remembered and the runner's step returns,
    [step] raises the [KeyError] of the first key it misses: [T] in the
    observations, then the bridge's robot under [T], then [T] in the
    terminated flags.  The runner has been stepped by then, and [T]
    stays remembered. *)
Theorem step_missing_entry action self T origin_obs terminated_status runner' :
  _current_task_name self = Some T →
  runner_step {[ T := {[ _robot_name self := action ]} ]} (_runner self)
    = (Ok (origin_obs, terminated_status), runner') →
  (origin_obs !! T = None →
   step action self = (Err (KeyError T), with_runner self runner')) ∧
  (∀ by_robot, origin_obs !! T = Some by_robot → by_robot !! _robot_name self = None →
   step action self = (Err (KeyError (_robot_name self)), with_runner self runner')) ∧
  (∀ by_robot obs, origin_obs !! T = Some by_robot → by_robot !! _robot_name self = Some obs →
   terminated_status !! T = None →
   step action self = (Err (KeyError T), with_runner self runner')).
Proof.
  intros Htask Hstep. rewrite (step_with_task _ _ T Htask), Hstep.
  unfold getitem, with_runner. cbn. repeat split.
  - by intros ->.
  - intros by_robot -> Hrobot. cbn. by rewrite Hrobot.
  - intros by_robot obs -> Hrobot Hflag. cbn. rewrite Hrobot. cbn. by rewrite Hflag.
Qed.

(** X7: an exception raised by the runner inside [reset], [step] or
    [get_observations] leaves the method as it is; the bridge keeps the
    runner as the failed call left it and remembers the same task. *)
Theorem runner_exception_propagates self e runner' :
  (runner_reset (_current_task_name self) (_runner self) = (Err e, runner') →
   reset self = (Err e, with_runner self runner')) ∧
  (∀ action T, _current_task_name self = Some T →
     runner_step {[ T := {[ _robot_name self := action ]} ]} (_runner self) = (Err e, runner') →
     step action self = (Err e, with_runner self runner')) ∧
  (∀ T, _current_task_name self = Some T →
     runner_get_obs (_runner self) = (Err e, runner') →
     get_observations self = (Err e, with_runner self runner')).
Proof.
  split; [|split].
  - intros Hreset. by rewrite reset_run, Hreset.
  - intros action T Htask Hstep. by rewrite (step_with_task _ _ T Htask), Hstep.
  - intros T Htask Hobs. by rewrite (get_observations_run _ T Htask), Hobs.
Qed.

(** X9: [get_observations] returns the empty observation, and leaves the
    bridge and its runner as they were, when no task is remembered;
    while [T] is remembered it asks the runner and returns the entry of
    its answer for [T] and the bridge's robot, and raises the [KeyError]
    of the key the answer lacks. *)
Theorem get_observations_slice self :
  (_current_task_name self = None → get_observations self = (Ok ∅, self)) ∧
  (∀ T _obs runner', _current_task_name self = Some T →
     runner_get_obs (_runner self) = (Ok _obs, runner') →
     get_observations self =
       (match _obs !! T with
        | None => Err (KeyError T)
        | Some by_robot =>
            match by_robot !! _robot_name self with
            | None => Err (KeyError (_robot_name self))
            | Some obs => Ok obs
            end
        end,
        with_runner self runner')).
Proof.
  split; [apply get_observations_idle|].
  intros T _obs runner' Htask Hobs.
  rewrite (get_observations_run _ T Htask), Hobs. unfold getitem. cbn.
  destruct (_obs !! T) as [by_robot|]; [|done].
  cbn. by destruct (by_robot !! _robot_name self).
Qed.

(** X10: [finished] returns true exactly when the runner's set of
    current tasks is empty, and leaves the bridge as it was. *)
Theorem finished_iff self :
  ∃ b, finished self = (Ok b, self) ∧
       (b = true ↔ runner_current_tasks (_runner self) = ∅).
Proof.
  exists (bool_decide (size (runner_current_tasks (_runner self)) = 0%nat)).
  split; [done|].
  rewrite bool_decide_eq_true, size_empty_iff. by unfold_leibniz.
Qed.

(** X11: once a task name is remembered, no sequence of calls makes the
    bridge forget it: [reset] replaces it by another name or keeps it,
    also when the runner has no task left, and no other method writes
    it. *)
Theorem task_never_cleared (cs : list MethodCall) self :
  is_Some (_current_task_name self) →
  is_Some (_current_task_name (after_all cs self)).
Proof.
  revert self. induction cs as [|c cs IH]; intros self Hsome; [done|].
  unfold after_all in *. cbn [foldl]. apply IH.
  destruct queries_keep_task as (Hobs & Hdt & Hfin & Hclose & Hrender).
  destruct c; unfold after.
  - rewrite reset_remembers. by apply remembered_after_some.
  - by rewrite step_keeps_task.
  - by rewrite Hobs.
  - by rewrite Hdt.
  - by rewrite Hfin.
  - by rewrite Hclose.
  - by rewrite Hrender.
Qed.

(** X12: the action space, the observation space, the render handle,
    [env_num] and the configuration mapping of a bridge are the same
    after any sequence of calls, returning or raising. *)
Theorem bridge_constants (cs : list MethodCall) self :
  action_space (after_all cs self) = action_space self ∧
  observation_space (after_all cs self) = observation_space self ∧
  _render (after_all cs self) = _render self ∧
  env_num (_runtime (after_all cs self)) = env_num (_runtime self) ∧
  config (_runtime (after_all cs self)) = config (_runtime self).
Proof.
  split; [|split; [|split; [|split]]]; revert cs self.
  - apply (kept_by_all action_space). intros c self. apply spaces_kept.
  - apply (kept_by_all observation_space). intros c self. apply spaces_kept.
  - apply (kept_by_all _render). intros c self. apply render_kept.
  - apply (kept_by_all (λ self, env_num (_runtime self))). intros c self.
    apply configuration_kept.
  - apply (kept_by_all (λ self, config (_runtime self))). intros c self.
    apply configuration_kept.
Qed.

End Protocol.

Section Stepping.

Context `{Collaborators} {R : Type} `{!TaskRunner R}.

Implicit Types (action : Action).

(** C4: with no task remembered, [step] returns the empty observation,
    reward [0.0], terminated, not truncated, and an empty info map; the
    bridge and its runner are as they were, and the runner, which records
    the calls made on it, has recorded none. *)
Theorem step_without_task action (self : Env (R:=Spy R)) :
  _current_task_name self = None →
  step action self = (Ok (∅, 0%float, true, false, ∅), self) ∧
  spy_calls (_runner (step action self).2) = spy_calls (_runner self).
Proof.
  intros Htask. pose proof (step_idle action self Htask) as Hstep.
  split; [done|]. by rewrite Hstep.
Qed.

(** While a task is remembered, [step] calls the runner's step once,
    with the action filed under that task and the bridge's robot, also
    when the call raises or its answer lacks an entry. *)
Lemma step_records_call action (self : Env (R:=Spy R)) T :
  _current_task_name self = Some T →
  spy_calls (_runner (step action self).2) =
    (spy_calls (_runner self)
       ++ [CalledStep {[ T := {[ _robot_name self := action ]} ]}])%list.
Proof.
  intros Htask. rewrite (step_with_task _ _ T Htask).
  cbn [runner_step spy_runner]. unfold spy_on.
  by destruct (runner_step _ (spied (_runner self))).
Qed.

(** C3: while the task [T] is remembered, [step a] calls the runner's
    step once, with the map that sends [T] to the map that sends the
    bridge's robot to [a] and holds nothing else; when that call returns
    observations and flags that have an entry for [T] (and the robot),
    [step] returns that observation, reward [0.0], that flag, truncated
    false and an empty info map.  Every tuple [step] returns, on any
    bridge, has reward [0.0] and truncated false. *)
Theorem step_forwards action (self : Env (R:=Spy R)) T
    origin_obs terminated_status runner' by_robot obs terminated :
  _current_task_name self = Some T →
  runner_step {[ T := {[ _robot_name self := action ]} ]} (spied (_runner self))
    = (Ok (origin_obs, terminated_status), runner') →
  origin_obs !! T = Some by_robot →
  by_robot !! _robot_name self = Some obs →
  terminated_status !! T = Some terminated →
  step action self =
    (Ok (obs, 0%float, terminated, false, ∅),
     mkEnv (_render self) (_runtime self) (_robot_name self) (Some T)
           (action_space self) (observation_space self)
           (mkSpy (spy_calls (_runner self)
                     ++ [CalledStep {[ T := {[ _robot_name self := action ]} ]}])
                  runner')) ∧
  ∀ action' (self' : Env (R:=Spy R)) obs' reward' terminated' truncated' info',
    (step action' self').1 = Ok (obs', reward', terminated', truncated', info') →
    reward' = 0%float ∧ truncated' = false.
Proof.
  intros Htask Hstep Hby Hobs Hterm. split.
  - rewrite (step_with_task _ _ T Htask).
    cbn [runner_step spy_runner]. unfold spy_on. rewrite Hstep.
    cbn. unfold getitem. rewrite Hby. cbn. rewrite Hobs. cbn. by rewrite Hterm, Htask.
  - intros action' self' obs' reward' terminated' truncated' info' Hret.
    by destruct (step_constants _ _ _ _ _ _ _ Hret) as (? & ? & _).
Qed.

(** C8: [step] leaves the remembered task name as it was, for every
    action and whatever the runner answers or raises, a terminated flag
    included; so does every method other than [reset]. *)
Theorem task_name_kept (c : MethodCall) (self : Env (R:=R)) :
  c ≠ CallReset →
  _current_task_name (after c self) = _current_task_name self ∧
  ∀ action, _current_task_name (step action self).2 = _current_task_name self.
Proof.
  intros Hc. split.
  - destruct (queries_keep_task (R:=R)) as (Hobs & Hdt & Hfin & Hclose & Hrender).
    destruct c; unfold after; [done| | | | | |]; auto using step_keeps_task.
    apply step_keeps_task.
  - intros action. apply step_keeps_task.
Qed.

(** [reset] calls the runner's reset once, with the remembered name,
    also when the call raises. *)
Lemma reset_records_call (self : Env (R:=Spy R)) :
  spy_calls (_runner (reset self).2) =
    (spy_calls (_runner self) ++ [CalledReset (_current_task_name self)])%list.
Proof.
  rewrite reset_run. cbn [runner_reset spy_runner]. unfold spy_on.
  by destruct (runner_reset _ (spied (_runner self))) as [[[origin_obs [task_runtime|]]|e] runner'].
Qed.

(** The recording runner answers as the runner it records. *)
Lemma spy_reset_answer name (s : Spy R) :
  (runner_reset name s).1 = (runner_reset name (spied s)).1.
Proof. cbn [runner_reset spy_runner]. unfold spy_on. by destruct (runner_reset name (spied s)). Qed.

Lemma get_observations_records_call (self : Env (R:=Spy R)) T :
  _current_task_name self = Some T →
  spy_calls (_runner (get_observations self).2) =
    (spy_calls (_runner self) ++ [CalledGetObs])%list.
Proof.
  intros Htask. rewrite (get_observations_run _ T Htask).
  cbn [runner_get_obs spy_runner]. unfold spy_on.
  by destruct (runner_get_obs (spied (_runner self))).
Qed.

(** X14: the calls each method makes on the runner, whether it returns
    or raises: [reset] makes one reset call, with the remembered name;
    [step] makes one step call, with the action filed under the
    remembered task and the bridge's robot, and none when no task is
    remembered; [get_observations] makes one call, and none when no task
    is remembered; [get_dt], [finished], [close] and [render] make
    none. *)
Theorem runner_calls (c : MethodCall) (self : Env (R:=Spy R)) :
  spy_calls (_runner (after c self)) = (spy_calls (_runner self) ++ calls_of c self)%list.
Proof.
  destruct c; unfold after, calls_of.
  - apply reset_records_call.
  - destruct (_current_task_name self) as [T|] eqn:Htask.
    + by apply step_records_call.
    + by rewrite step_idle, app_nil_r.
  - destruct (_current_task_name self) as [T|] eqn:Htask.
    + by apply (get_observations_records_call _ T).
    + by rewrite get_observations_idle, app_nil_r.
  - by rewrite app_nil_r.
  - by rewrite app_nil_r.
  - rewrite app_nil_r. unfold close, on_simulation_app.
    by destruct (app_close (simulation_app (_runtime self))).
  - by rewrite app_nil_r.
Qed.

(** X15: the call that follows a [reset] works on the name that [reset]
    left remembered: the descriptor's name when the runner returned a
    descriptor (also when [reset] then raised a [KeyError]), the name
    from before otherwise.  A second [reset] passes that name to the
    runner; a [step] files its action under it, and, when the runner
    had no descriptor and a finished task was remembered, still steps
    that task. *)
Theorem calls_after_reset (self : Env (R:=Spy R)) :
  let current := _current_task_name self in
  let next := remembered_after current (runner_reset current (spied (_runner self))).1 in
  spy_calls (_runner (reset (reset self).2).2) =
    (spy_calls (_runner self) ++ [CalledReset current; CalledReset next])%list ∧
  ∀ action,
    spy_calls (_runner (step action (reset self).2).2) =
      (spy_calls (_runner self) ++
         CalledReset current ::
         match next with
         | Some T => [CalledStep {[ T := {[ _robot_name self := action ]} ]}]
         | None => []
         end)%list.
Proof.
  intros current next.
  assert (_current_task_name (reset self).2 = next) as Hnext.
  { rewrite reset_remembers. unfold next, current. by rewrite spy_reset_answer. }
  assert (_robot_name (reset self).2 = _robot_name self) as Hrobot.
  { apply (robot_name_kept CallReset). }
  split.
  - rewrite reset_records_call, Hnext, reset_records_call. by rewrite <- app_assoc.
  - intros action. destruct next as [T|].
    + rewrite (step_records_call _ _ T Hnext), Hrobot, reset_records_call.
      by rewrite <- app_assoc.
    + rewrite (step_idle _ _ Hnext). cbn [snd]. by rewrite reset_records_call.
Qed.

End Stepping.

Section Constructed.

Context `{Collaborators} {R : Type} `{!TaskRunner R}.

Implicit Types (rt : SimulatorRuntime) (cfg : ValidatedConfig.t) (env : Env (R:=R)).

(** What [_validate] has checked when it returns. *)
Lemma validate_checked rt robot :
  _validate rt = Ok robot →
  (env_num rt ≤ 1)%Z ∧
  ∃ cfg robot_name,
    new_ValidatedConfig (config rt) = Ok cfg ∧
    validate_episodes None (TaskCfg.episodes (ValidatedConfig.task_config cfg)) = Ok robot_name ∧
    robot = py_str robot_name +:+ "_0".
Proof.
  unfold _validate. case_bool_decide as Hnum; [done|]. intros Hv.
  split; [lia|].
  destruct (new_ValidatedConfig (config rt)) as [cfg|] eqn:Hcfg; [|done].
  cbn in Hv.
  destruct (validate_episodes None _) as [robot_name|] eqn:Hloop; [|done].
  exists cfg, robot_name. repeat split; [done|]. cbn in Hv. by inversion Hv.
Qed.

(** What the space lookups have returned when [__init__] returns. *)
Lemma init_spaces rt env :
  __init__ rt = Ok env →
  ∃ ty, config_task_type rt = Ok ty ∧
        get_action_space_by_task ty = Ok (action_space env) ∧
        get_observation_space_by_task ty = Ok (observation_space env).
Proof.
  unfold __init__, _get_action_space, _get_observation_space, mbind, result_bind.
  intros Hinit.
  destruct (config_task_type rt) as [ty|]; [|done].
  destruct (get_action_space_by_task ty) as [a|] eqn:Ha; [|done].
  destruct (get_observation_space_by_task ty) as [o|] eqn:Ho; [|done].
  destruct (_validate rt); [|done].
  destruct (SimulatorRunner rt); [|done].
  exists ty. by injection Hinit as <-.
Qed.

(** X1: a bridge is only ever constructed for a runtime whose [env_num]
    is at most 1, whose task type resolves to the two spaces the bridge
    holds, whose configuration loads and whose episodes each list
    exactly one robot; the bridge holds that runtime and remembers no
    task. *)
Theorem construction_sound rt env :
  __init__ rt = Ok env →
  (env_num rt ≤ 1)%Z ∧
  (∃ ty, config_task_type rt = Ok ty ∧
         get_action_space_by_task ty = Ok (action_space env) ∧
         get_observation_space_by_task ty = Ok (observation_space env)) ∧
  (∃ cfg, new_ValidatedConfig (config rt) = Ok cfg ∧
          Forall (λ episode, length (EpisodeCfg.robots episode) = 1%nat)
                 (TaskCfg.episodes (ValidatedConfig.task_config cfg))) ∧
  _runtime env = rt ∧ _current_task_name env = None ∧
  SimulatorRunner rt = Ok (_runner env).
Proof.
  intros Hinit. pose proof (init_spaces _ _ Hinit) as Hspaces.
  destruct (init_ok _ _ Hinit) as (a & o & robot & runner & Hv & Hrunner & ->).
  destruct (validate_checked _ _ Hv) as (Hnum & cfg & robot_name & Hcfg & Hloop & _).
  split; [done|]. split; [done|]. split; [|done].
  exists cfg. split; [done|]. by eapply validate_episodes_single.
Qed.

(** X2: when construction succeeds, every robot name that is not [None]
    in the configuration is the same name, and the bridge's robot id is
    that name followed by ["_0"]. *)
Theorem construction_names_agree rt cfg env episode robot n :
  __init__ rt = Ok env →
  new_ValidatedConfig (config rt) = Ok cfg →
  episode ∈ TaskCfg.episodes (ValidatedConfig.task_config cfg) →
  robot ∈ EpisodeCfg.robots episode →
  RobotCfg.name robot = Some n →
  _robot_name env = n +:+ "_0" ∧
  ∀ episode' robot' n',
    episode' ∈ TaskCfg.episodes (ValidatedConfig.task_config cfg) →
    robot' ∈ EpisodeCfg.robots episode' →
    RobotCfg.name robot' = Some n' → n' = n.
Proof.
  intros Hinit Hcfg Hep Hrobot Hname.
  destruct (init_ok _ _ Hinit) as (a & o & robot_id & runner & Hv & _ & ->).
  destruct (validate_ok _ _ _ Hv Hcfg) as (robot_name & Hloop & ->).
  destruct (validate_episodes_named _ _ _ Hloop) as [_ Hmet].
  pose proof (Hmet _ _ _ Hep Hrobot Hname) as ->.
  split; [done|].
  intros episode' robot' n' Hep' Hrobot' Hname'.
  pose proof (Hmet _ _ _ Hep' Hrobot' Hname'). congruence.
Qed.

(** X3: construction succeeds on a runtime with [env_num] at most 1
    whose task type resolves, whose configuration loads with at least
    one episode, every episode listing one robot called [n], and whose
    runner starts: the bridge has robot id [n] followed by ["_0"], the
    resolved spaces, no render handle and no remembered task. *)
Theorem construction_succeeds rt cfg (a o : Space) n (runner : R) :
  (env_num rt ≤ 1)%Z →
  _get_action_space rt = Ok a →
  _get_observation_space rt = Ok o →
  new_ValidatedConfig (config rt) = Ok cfg →
  TaskCfg.episodes (ValidatedConfig.task_config cfg) ≠ [] →
  Forall (named (Some n)) (TaskCfg.episodes (ValidatedConfig.task_config cfg)) →
  SimulatorRunner rt = Ok runner →
  __init__ rt = Ok (mkEnv None rt (n +:+ "_0") None a o runner).
Proof.
  intros Hnum Ha Ho Hcfg Hsome Hall Hrunner.
  rewrite (init_resolved _ a o), (validate_loaded _ cfg) by done.
  destruct (TaskCfg.episodes _) as [|first rest]; [done|].
  apply Forall_cons in Hall as [Hfirst Hrest].
  rewrite <- (app_nil_r rest), (validate_episodes_first n) by done.
  cbn. by rewrite Hrunner.
Qed.

(** X5: a bridge that has just been constructed remembers no task:
    [step] returns the empty observation, reward [0.0], terminated, not
    truncated, and [get_observations] the empty observation, and neither
    touches the runner. *)
Theorem constructed_idle rt env action :
  __init__ rt = Ok env →
  step action env = (Ok (∅, 0%float, true, false, ∅), env) ∧
  get_observations env = (Ok ∅, env).
Proof.
  intros Hinit.
  destruct (init_ok _ _ Hinit) as (a & o & robot & runner & _ & _ & ->).
  split; [by apply step_idle|by apply get_observations_idle].
Qed.

(** X13: the render handle of a constructed bridge is [None] and stays
    so: [is_render] returns [None] after any sequence of calls. *)
Theorem is_render_none rt env (cs : list MethodCall) :
  __init__ rt = Ok env →
  is_render (after_all cs env) = (Ok None, after_all cs env).
Proof.
  intros Hinit. unfold is_render, attr.
  rewrite (kept_by_all _render render_kept).
  by destruct (init_ok _ _ Hinit) as (a & o & robot & runner & _ & _ & ->).
Qed.

End Constructed.

(** ** The probes of [grutopia/core/util/__init__.py] *)

(** X16: [has_display] returns true exactly when [DISPLAY] is set in the
    environment to a text that is not empty; a missing variable gives
    false, not an exception, and nothing is logged. *)
Theorem has_display_iff (environ : gmap string string) (log : list string) :
  ((has_display environ log).1 = true ↔
     ∃ display, environ !! "DISPLAY" = Some display ∧ display ≠ "") ∧
  (has_display environ log).2 = log.
Proof.
  unfold has_display, getitem.
  destruct (environ !! "DISPLAY") as [display|].
  - rewrite bool_decide_eq_true_2 by done. cbn [andb].
    case_bool_decide as Hempty; cbn; (split; [|done]).
    + split; [eauto|done].
    + split; [done|]. intros (d & [= <-] & Hd). done.
  - cbn. split; [|done]. split; [done|]. by intros (d & ? & _).
Qed.

(** X17: [is_in_container] returns true exactly when [os.stat] of
    [/.dockerenv] returns; it never raises; it logs one error, with the
    text of the exception, exactly when [os.stat] raises something other
    than [FileNotFoundError]. *)
Theorem is_in_container_iff (os_stat : string → option os_exn) (log : list string) :
  ((is_in_container os_stat log).1 = true ↔ os_stat "/.dockerenv" = None) ∧
  (is_in_container os_stat log).2 =
    match os_stat "/.dockerenv" with
    | Some (OtherError text) =>
        (log ++ ["Error while checking if in container, assume False: " +:+ text])%list
    | _ => log
    end.
Proof.
  unfold is_in_container.
  destruct (os_stat "/.dockerenv") as [[|text]|]; cbn; by split.
Qed.

(** * The statements on the concrete simulator *)

Import Fixture.

(** The fixture bridges are states of one run: construction, [reset],
    [step]. *)
Example fixture_run :
  __init__ two_episodes = Ok fresh ∧
  (reset fresh).2 = started ∧
  (step 7 started).2 = stepped.
Proof. split; [reflexivity|]. split; reflexivity. Qed.

(** C1 fails for [env_num = 0]: the check is [env_num > 1], the
    constructor returns a bridge. *)
Lemma zero_env_accepted :
  let rt := runtime 0 task_type [[jetbot]] in
  env_num rt ≠ 1 ∧
  _validate rt = Ok "jetbot_0" ∧
  __init__ rt = Ok (bridge rt "jetbot_0" None (mkSpy [] (mkScript ["task_0"] 0))).
Proof. split; [discriminate|]. split; reflexivity. Qed.

Lemma multi_env_rejected_witness :
  let rt := runtime 2 task_type [[jetbot]] in
  _validate rt = Err (ValueError "Only support single env now, but env num is 2") ∧
  __init__ (R:=Script) rt = Err (ValueError "Only support single env now, but env num is 2").
Proof.
  apply (multi_env_rejected (runtime 2 task_type [[jetbot]])
           ("action space of " +:+ task_type) ("observation space of " +:+ task_type)).
  - reflexivity.
  - reflexivity.
  - reflexivity.
Defined.

(** C6 fails when an earlier check fires first: the third episode lists
    two robots, yet the error is the heterogeneous-agent one, raised at
    the second episode. *)
Lemma later_episode_not_reported :
  let rt := runtime 1 task_type [[jetbot]; [aliengo]; [jetbot; aliengo]] in
  new_ValidatedConfig (config rt)
    = Ok (ValidatedConfig.mk (TaskCfg.mk task_type
            [episode [jetbot]; episode [aliengo]; episode [jetbot; aliengo]])) ∧
  length (EpisodeCfg.robots (episode [jetbot; aliengo])) = 2%nat ∧
  __init__ (R:=Script) rt = Err heterogeneous_agents ∧
  heterogeneous_agents ≠ multi_agent 2.
Proof. split; [reflexivity|]. split; [reflexivity|]. split; [reflexivity|discriminate]. Qed.

(** A first robot without a name is not compared with the next one. *)
Example null_name_not_compared :
  let rt := runtime 1 task_type [[None]; [jetbot]] in
  __init__ rt = Ok (bridge rt "jetbot_0" None (mkSpy [] (mkScript ["task_0"; "task_1"] 0))) ∧
  __init__ (R:=Script) (runtime 1 task_type [[jetbot]; [None]]) = Err heterogeneous_agents.
Proof. split; reflexivity. Qed.

Lemma episode_rejected_witness :
  __init__ (R:=Script) (runtime 1 task_type [[jetbot]; [jetbot]; [jetbot; aliengo]; [aliengo]])
    = Err (ValueError "Only support single agent now, but episode requires 2 agents") ∧
  __init__ (R:=Script) (runtime 1 task_type [[jetbot]; [jetbot]; [aliengo]])
    = Err (ValueError "Only support single agent now, but episode requires multiple agents") ∧
  __init__ (R:=Script) (runtime 0 task_type [[]])
    = Err (ValueError "Only support single agent now, but episode requires 0 agents").
Proof.
  assert (∀ eps, Forall (named jetbot) (episode <$> replicate eps [jetbot])) as Hseen.
  { intros eps. induction eps; constructor; [|done]. by eexists. }
  split; [|split].
  - refine (proj1 (episode_rejected
                     (runtime 1 task_type [[jetbot]; [jetbot]; [jetbot; aliengo]; [aliengo]])
                     ("action space of " +:+ task_type) ("observation space of " +:+ task_type)
                     (ValidatedConfig.mk (TaskCfg.mk task_type _)) "jetbot"
                     (episode <$> replicate 2 [jetbot]) (episode [jetbot; aliengo])
                     [episode [aliengo]] _ _ _ _ _ (Hseen 2%nat)) _);
      first [discriminate | reflexivity].
  - refine (proj2 (episode_rejected
                     (runtime 1 task_type [[jetbot]; [jetbot]; [aliengo]])
                     ("action space of " +:+ task_type) ("observation space of " +:+ task_type)
                     (ValidatedConfig.mk (TaskCfg.mk task_type _)) "jetbot"
                     (episode <$> replicate 2 [jetbot]) (episode [aliengo])
                     [] _ _ _ _ _ (Hseen 2%nat)) _ _);
      first [discriminate | reflexivity | idtac].
    exists aliengo. split; [by eexists | discriminate].
  - refine (proj1 (episode_rejected
                     (runtime 0 task_type [[]])
                     ("action space of " +:+ task_type) ("observation space of " +:+ task_type)
                     (ValidatedConfig.mk (TaskCfg.mk task_type _)) "jetbot"
                     [] (episode []) [] _ _ _ _ _ (Hseen 0%nat)) _);
      first [discriminate | reflexivity].
Defined.

Lemma space_error_first_witness :
  let rt := runtime 2 "FlyTask" [[jetbot; aliengo]] in
  _validate rt = Err (multi_env 2) ∧
  __init__ (R:=Script) rt = Err (Raised "unknown task type FlyTask").
Proof.
  split; [reflexivity|].
  apply (space_error_first (runtime 2 "FlyTask" [[jetbot; aliengo]]) (VStr "FlyTask")).
  - reflexivity.
  - left. reflexivity.
Defined.

Lemma no_episode_robot_name_witness :
  let rt := runtime 1 task_type [] in
  _validate rt = Ok "None_0" ∧
  __init__ rt = Ok (bridge rt "None_0" None (mkSpy [] (mkScript [] 0))).
Proof.
  apply (no_episode_robot_name (R:=Spy Script) (runtime 1 task_type [])
           ("action space of " +:+ task_type) ("observation space of " +:+ task_type)
           (ValidatedConfig.mk (TaskCfg.mk task_type [])));
    reflexivity.
Defined.

Lemma robot_name_fixed_witness :
  _robot_name fresh = "jetbot_0" ∧
  ∀ cs : list MethodCall, _robot_name (after_all cs fresh) = "jetbot_0".
Proof.
  apply (robot_name_fixed two_episodes
           (ValidatedConfig.mk (TaskCfg.mk task_type [episode [jetbot]; episode [jetbot]]))
           jetbot fresh).
  - reflexivity.
  - reflexivity.
  - discriminate.
  - intros ep r Hep Hr. cbn in Hep.
    assert (ep = episode [jetbot]) as ->.
    { apply elem_of_cons in Hep as [->|Hep]; [done|].
      by apply list_elem_of_singleton in Hep. }
    by apply list_elem_of_singleton in Hr as ->.
Defined.

Lemma reset_with_task_witness :
  reset fresh = (Ok ({[ "tick" := 0 ]}, {[ "task_runtime" := ("task_0", 2%nat) ]}), started) ∧
  _current_task_name (reset fresh).2 = Some "task_0".
Proof.
  apply (reset_with_task fresh
           {[ "task_0" := {[ "jetbot_0" := {[ "tick" := 0 ]} ]} ]} ("task_0", 2%nat)
           (mkSpy [CalledReset None] (mkScript ["task_0"; "task_1"] 0))
           "task_0" {[ "jetbot_0" := {[ "tick" := 0 ]} ]} {[ "tick" := 0 ]});
    reflexivity.
Defined.

(** The runner has run out of tasks: [reset] returns the empty pair and
    the name of the finished task stays. *)
Lemma reset_without_task_witness :
  reset last_task =
    (Ok (∅, ∅),
     bridge two_episodes "jetbot_0" (Some "task_1")
            (mkSpy [CalledReset (Some "task_1")] (mkScript [] 0))) ∧
  _current_task_name (reset last_task).2 = Some "task_1".
Proof.
  apply (reset_without_task last_task ∅
           (mkSpy [CalledReset (Some "task_1")] (mkScript [] 0))).
  reflexivity.
Defined.

Lemma step_without_task_witness :
  step 7 fresh = (Ok (∅, 0%float, true, false, ∅), fresh) ∧
  spy_calls (_runner (step 7 fresh).2) = [].
Proof. apply (step_without_task (H:=world) (R:=Script) 7 fresh). reflexivity. Defined.

(** The second tick of the scripted task terminates it. *)
Lemma step_forwards_witness :
  step 7 stepped =
    (Ok ({[ "tick" := 2 ]}, 0%float, true, false, ∅),
     bridge two_episodes "jetbot_0" (Some "task_0")
            (mkSpy [CalledReset None;
                    CalledStep {[ "task_0" := {[ "jetbot_0" := 7 ]} ]};
                    CalledStep {[ "task_0" := {[ "jetbot_0" := 7 ]} ]}]
                   (mkScript ["task_0"; "task_1"] 2))).
Proof.
  refine (proj1 (step_forwards (H:=world) (R:=Script) 7 stepped "task_0"
                   {[ "task_0" := {[ "jetbot_0" := {[ "tick" := 2 ]} ]} ]}
                   {[ "task_0" := true ]} (mkScript ["task_0"; "task_1"] 2)
                   {[ "jetbot_0" := {[ "tick" := 2 ]} ]} {[ "tick" := 2 ]} true
                   _ _ _ _ _));
    reflexivity.
Defined.

(** The task stays remembered after the [step] that reports it
    terminated. *)
Lemma task_name_kept_witness :
  (step 7 stepped).1 = Ok ({[ "tick" := 2 ]}, 0%float, true, false, ∅) ∧
  _current_task_name (after (CallStep 7) stepped) = Some "task_0" ∧
  ∀ action, _current_task_name (step action stepped).2 = Some "task_0".
Proof.
  split; [reflexivity|].
  apply (task_name_kept (R:=Spy Script) (CallStep (H:=world) 7) stepped). discriminate.
Defined.

(** ** Further statements on the concrete simulator *)

Lemma null_names_skipped_witness :
  validate_episodes None ([episode [None]; episode [None]] ++ [episode [jetbot]; episode [jetbot]])
    = validate_episodes None [episode [jetbot]; episode [jetbot]] ∧
  validate_episodes None [episode [None]; episode [None]; episode [jetbot]; episode [jetbot]]
    = Ok jetbot.
Proof.
  split; [|reflexivity].
  apply null_names_skipped. repeat constructor; by eexists.
Defined.

Lemma construction_sound_witness :
  (env_num two_episodes ≤ 1)%Z ∧
  (∃ ty, config_task_type two_episodes = Ok ty ∧
         get_action_space_by_task ty = Ok (action_space fresh) ∧
         get_observation_space_by_task ty = Ok (observation_space fresh)) ∧
  (∃ cfg, new_ValidatedConfig (config two_episodes) = Ok cfg ∧
          Forall (λ episode, length (EpisodeCfg.robots episode) = 1%nat)
                 (TaskCfg.episodes (ValidatedConfig.task_config cfg))) ∧
  _runtime fresh = two_episodes ∧ _current_task_name fresh = None ∧
  SimulatorRunner two_episodes = Ok (_runner fresh).
Proof. apply (construction_sound two_episodes fresh). reflexivity. Defined.

Lemma construction_names_agree_witness :
  _robot_name fresh = "jetbot_0" ∧
  ∀ episode' robot' n',
    episode' ∈ [episode [jetbot]; episode [jetbot]] →
    robot' ∈ EpisodeCfg.robots episode' →
    RobotCfg.name robot' = Some n' → n' = "jetbot".
Proof.
  apply (construction_names_agree two_episodes
           (ValidatedConfig.mk (TaskCfg.mk task_type [episode [jetbot]; episode [jetbot]]))
           fresh (episode [jetbot]) (robot jetbot) "jetbot").
  - reflexivity.
  - reflexivity.
  - apply list_elem_of_here.
  - apply list_elem_of_here.
  - reflexivity.
Defined.

Lemma construction_succeeds_witness : __init__ two_episodes = Ok fresh.
Proof.
  apply (construction_succeeds two_episodes
           (ValidatedConfig.mk (TaskCfg.mk task_type [episode [jetbot]; episode [jetbot]]))
           ("action space of " +:+ task_type) ("observation space of " +:+ task_type)
           "jetbot" (mkSpy [] (mkScript ["task_0"; "task_1"] 0))).
  - discriminate.
  - reflexivity.
  - reflexivity.
  - reflexivity.
  - discriminate.
  - repeat constructor; by eexists.
  - reflexivity.
Defined.

Lemma constructed_idle_witness :
  step 7 fresh = (Ok (∅, 0%float, true, false, ∅), fresh) ∧
  get_observations fresh = (Ok ∅, fresh).
Proof. apply (constructed_idle (H:=world) two_episodes fresh 7). reflexivity. Defined.

Lemma is_render_none_witness :
  is_render (after_all [CallReset; CallStep (H:=world) 7; CallClose] fresh)
    = (Ok None, after_all [CallReset; CallStep (H:=world) 7; CallClose] fresh).
Proof. apply (is_render_none two_episodes fresh). reflexivity. Defined.

(** The runner answers with a descriptor for ["task_9"] and observations
    of ["task_0"]; then with observations of another robot. *)
Lemma reset_missing_entry_witness :
  reset (mocked None [] (mkMock [Ok (seen_by_jetbot "task_0" 0, Some ("task_9", 1%nat))] [] []))
    = (Err (KeyError "task_9"), mocked (Some "task_9") [CalledReset None] no_answer) ∧
  reset (mocked None [] (mkMock [Ok ({[ "task_0" := {[ "aliengo_0" := ∅ ]} ]},
                                     Some ("task_0", 1%nat))] [] []))
    = (Err (KeyError "jetbot_0"), mocked (Some "task_0") [CalledReset None] no_answer).
Proof.
  split.
  - refine (proj1 (reset_missing_entry (R:=Spy Mock)
                     (mocked None [] (mkMock [Ok (seen_by_jetbot "task_0" 0,
                                                  Some ("task_9", 1%nat))] [] []))
                     (seen_by_jetbot "task_0" 0) ("task_9", 1%nat)
                     (mkSpy [CalledReset None] no_answer) _) _); reflexivity.
  - refine (proj2 (reset_missing_entry (R:=Spy Mock)
                     (mocked None [] (mkMock [Ok ({[ "task_0" := {[ "aliengo_0" := ∅ ]} ]},
                                                  Some ("task_0", 1%nat))] [] []))
                     {[ "task_0" := {[ "aliengo_0" := ∅ ]} ]} ("task_0", 1%nat)
                     (mkSpy [CalledReset None] no_answer) _)
                  {[ "aliengo_0" := ∅ ]} _ _); reflexivity.
Defined.

(** The runner's step answers without ["task_0"]; then without the
    bridge's robot; then without the flag of ["task_0"]. *)
Lemma step_missing_entry_witness :
  step 7 (mocked (Some "task_0") [] (mkMock [] [Ok (∅, ∅)] []))
    = (Err (KeyError "task_0"),
       mocked (Some "task_0") [CalledStep {[ "task_0" := {[ "jetbot_0" := 7 ]} ]}] no_answer) ∧
  step 7 (mocked (Some "task_0") []
            (mkMock [] [Ok ({[ "task_0" := ∅ ]}, {[ "task_0" := false ]})] []))
    = (Err (KeyError "jetbot_0"),
       mocked (Some "task_0") [CalledStep {[ "task_0" := {[ "jetbot_0" := 7 ]} ]}] no_answer) ∧
  step 7 (mocked (Some "task_0") [] (mkMock [] [Ok (seen_by_jetbot "task_0" 1, ∅)] []))
    = (Err (KeyError "task_0"),
       mocked (Some "task_0") [CalledStep {[ "task_0" := {[ "jetbot_0" := 7 ]} ]}] no_answer).
Proof.
  split; [|split].
  - refine (proj1 (step_missing_entry (H:=world) (R:=Spy Mock) 7
                     (mocked (Some "task_0") [] (mkMock [] [Ok (∅, ∅)] []))
                     "task_0" ∅ ∅
                     (mkSpy [CalledStep {[ "task_0" := {[ "jetbot_0" := 7 ]} ]}] no_answer)
                     _ _) _); reflexivity.
  - refine (proj1 (proj2 (step_missing_entry (H:=world) (R:=Spy Mock) 7
                     (mocked (Some "task_0") []
                        (mkMock [] [Ok ({[ "task_0" := ∅ ]}, {[ "task_0" := false ]})] []))
                     "task_0" {[ "task_0" := ∅ ]} {[ "task_0" := false ]}
                     (mkSpy [CalledStep {[ "task_0" := {[ "jetbot_0" := 7 ]} ]}] no_answer)
                     _ _)) ∅ _ _); reflexivity.
  - refine (proj2 (proj2 (step_missing_entry (H:=world) (R:=Spy Mock) 7
                     (mocked (Some "task_0") []
                        (mkMock [] [Ok (seen_by_jetbot "task_0" 1, ∅)] []))
                     "task_0" (seen_by_jetbot "task_0" 1) ∅
                     (mkSpy [CalledStep {[ "task_0" := {[ "jetbot_0" := 7 ]} ]}] no_answer)
                     _ _)) {[ "jetbot_0" := {[ "tick" := 1 ]} ]} {[ "tick" := 1 ]} _ _ _);
      reflexivity.
Defined.

(** The simulation crashes inside the runner. *)
Lemma runner_exception_propagates_witness :
  reset (mocked None [] (mkMock [Err crash] [] []))
    = (Err crash, mocked None [CalledReset None] no_answer) ∧
  step 7 (mocked (Some "task_0") [] (mkMock [] [Err crash] []))
    = (Err crash,
       mocked (Some "task_0") [CalledStep {[ "task_0" := {[ "jetbot_0" := 7 ]} ]}] no_answer) ∧
  get_observations (mocked (Some "task_0") [] (mkMock [] [] [Err crash]))
    = (Err crash, mocked (Some "task_0") [CalledGetObs] no_answer).
Proof.
  split; [|split].
  - refine (proj1 (runner_exception_propagates (R:=Spy Mock)
                     (mocked None [] (mkMock [Err crash] [] [])) crash
                     (mkSpy [CalledReset None] no_answer)) _); reflexivity.
  - refine (proj1 (proj2 (runner_exception_propagates (H:=world) (R:=Spy Mock)
                     (mocked (Some "task_0") [] (mkMock [] [Err crash] [])) crash
                     (mkSpy [CalledStep {[ "task_0" := {[ "jetbot_0" := 7 ]} ]}] no_answer)))
                  7 "task_0" _ _); reflexivity.
  - refine (proj2 (proj2 (runner_exception_propagates (R:=Spy Mock)
                     (mocked (Some "task_0") [] (mkMock [] [] [Err crash])) crash
                     (mkSpy [CalledGetObs] no_answer)))
                  "task_0" _ _); reflexivity.
Defined.

Lemma get_observations_slice_witness :
  get_observations fresh = (Ok ∅, fresh) ∧
  get_observations (mocked (Some "task_0") [] (mkMock [] [] [Ok (seen_by_jetbot "task_0" 3)]))
    = (Ok {[ "tick" := 3 ]}, mocked (Some "task_0") [CalledGetObs] no_answer) ∧
  get_observations (mocked (Some "task_1") [] (mkMock [] [] [Ok (seen_by_jetbot "task_0" 3)]))
    = (Err (KeyError "task_1"), mocked (Some "task_1") [CalledGetObs] no_answer).
Proof.
  split; [|split].
  - refine (proj1 (get_observations_slice (R:=Spy Script) fresh) _); reflexivity.
  - refine (proj2 (get_observations_slice (R:=Spy Mock)
                     (mocked (Some "task_0") [] (mkMock [] [] [Ok (seen_by_jetbot "task_0" 3)])))
                  "task_0" (seen_by_jetbot "task_0" 3) (mkSpy [CalledGetObs] no_answer) _ _);
      reflexivity.
  - refine (proj2 (get_observations_slice (R:=Spy Mock)
                     (mocked (Some "task_1") [] (mkMock [] [] [Ok (seen_by_jetbot "task_0" 3)])))
                  "task_1" (seen_by_jetbot "task_0" 3) (mkSpy [CalledGetObs] no_answer) _ _);
      reflexivity.
Defined.

(** The scripted runner runs out of tasks; ["task_1"] stays remembered. *)
Lemma task_never_cleared_witness :
  _current_task_name (after_all [CallReset; CallStep (H:=world) 7; CallReset] last_task)
    = Some "task_1" ∧
  is_Some (_current_task_name (after_all [CallReset; CallStep (H:=world) 7; CallReset] last_task)).
Proof.
  split; [reflexivity|].
  apply (task_never_cleared (R:=Spy Script)). by eexists.
Defined.

(** A finished task that stays remembered is stepped again. *)
Lemma calls_after_reset_witness :
  spy_calls (_runner (reset (reset last_task).2).2)
    = [CalledReset (Some "task_1"); CalledReset (Some "task_1")] ∧
  spy_calls (_runner (step 7 (reset last_task).2).2)
    = [CalledReset (Some "task_1"); CalledStep {[ "task_1" := {[ "jetbot_0" := 7 ]} ]}] ∧
  spy_calls (_runner (step 7 (reset fresh).2).2)
    = [CalledReset None; CalledStep {[ "task_0" := {[ "jetbot_0" := 7 ]} ]}].
Proof.
  split; [|split].
  - exact (proj1 (calls_after_reset (R:=Script) last_task)).
  - exact (proj2 (calls_after_reset (H:=world) (R:=Script) last_task) 7).
  - exact (proj2 (calls_after_reset (H:=world) (R:=Script) fresh) 7).
Defined.

Lemma runner_calls_witness :
  spy_calls (_runner (after (CallStep (H:=world) 7) started))
    = [CalledReset None; CalledStep {[ "task_0" := {[ "jetbot_0" := 7 ]} ]}] ∧
  spy_calls (_runner (after CallClose started)) = [CalledReset None].
Proof.
  split.
  - exact (runner_calls (R:=Script) (CallStep (H:=world) 7) started).
  - exact (runner_calls (R:=Script) CallClose started).
Defined.
